(** * dmcontent: scalar converters and govuk-frontend parameters

    A shallow embedding of [dmcontent/converters.py] and
    [dmcontent/govuk_frontend.py].

    Python values are a small universe of scalars, a call either returns
    or raises, and the builtins the two modules use ([str.lower],
    [str.startswith], slicing, [in], [int], [float]) carry the exceptions
    CPython raises for them.

    A Python [str] is embedded as a [string] holding its UTF-8 bytes.
    That is exact for everything the two modules do with text:
    - a prefix (suffix) test and the slice that removes it agree on bytes
      and on code points, UTF-8 being a prefix code whose lead bytes mark
      the code point boundaries;
    - the byte 46 occurs in UTF-8 only as the full stop;
    - [str.lower] is compared with ASCII words only, and the one
      non-ASCII letter whose lower case is ASCII (the Kelvin sign, to k)
      does not occur in any of them. *)

From Stdlib Require Import ZArith Bool List Lia.
From Stdlib Require Import Ascii String.
From Stdlib Require Import Floats.
From stdpp Require Import base decidable option strings gmap.

Import ListNotations.
Local Open Scope Z_scope.

(** ** Values, exceptions, outcomes *)

Inductive pyvalue : Type :=
| VNone
| VBool (b : bool)
| VInt (n : Z)
| VFloat (x : float)
| VStr (s : string).

Inductive exn : Type :=
| AttributeError
| TypeError
| ValueError
| OverflowError.

#[export] Instance exn_eq_dec : EqDecision exn.
Proof. solve_decision. Defined.

Inductive outcome (A : Type) : Type :=
| Return (a : A)
| Raise (e : exn).

Arguments Return {A} a.
Arguments Raise {A} e.

Definition bind {A B : Type} (c : outcome A) (k : A -> outcome B) : outcome B :=
  match c with
  | Return a => k a
  | Raise e => Raise e
  end.

Notation "'do' x <- c ; k" := (bind c (fun x => k))
  (at level 10, x name, c at level 100, k at level 200).

(** [try: body except (caught): handler]. *)
Definition try_except {A : Type} (body : outcome A) (caught : list exn)
    (handler : outcome A) : outcome A :=
  match body with
  | Return a => Return a
  | Raise e => if bool_decide (e ∈ caught) then handler else Raise e
  end.

Definition returns {A : Type} (c : outcome A) : Prop := exists a, c = Return a.

(** ** Builtins on text *)

Definition nl : string := String "010"%char EmptyString.
Definition dquote : string := String "034"%char EmptyString.

Definition is_upper (c : ascii) : bool :=
  let n := nat_of_ascii c in (65 <=? n)%nat && (n <=? 90)%nat.

Definition lower_ascii (c : ascii) : ascii :=
  if is_upper c then ascii_of_nat (nat_of_ascii c + 32) else c.

Fixpoint lower (s : string) : string :=
  match s with
  | EmptyString => EmptyString
  | String c s' => String (lower_ascii c) (lower s')
  end.

(** [s.startswith(p)] and [s.endswith(x)] on text. *)
Definition startswith (s p : string) : bool := String.prefix p s.

Definition endswith (s x : string) : bool :=
  (String.length x <=? String.length s)%nat
  && String.eqb (String.substring (String.length s - String.length x)
                                  (String.length x) s) x.

(** [s[start:stop]], either bound optional, step 1.  A negative index
    counts from the end, and both are clamped to [0, len(s)]. *)
Definition slice_index (len i : Z) : Z :=
  if i <? 0 then Z.max 0 (i + len) else Z.min i len.

Definition slice (s : string) (start stop : option Z) : string :=
  let len := Z.of_nat (String.length s) in
  let lo := match start with Some i => slice_index len i | None => 0 end in
  let hi := match stop with Some i => slice_index len i | None => len end in
  String.substring (Z.to_nat lo) (Z.to_nat (hi - lo)) s.

(** [needle in s] on text: substring search. *)
Definition contains (needle s : string) : bool :=
  match String.index 0 needle s with
  | Some _ => true
  | None => false
  end.

(** [x in [w1, w2, ...]] for text [x]. *)
Definition in_list (x : string) (ws : list string) : bool :=
  existsb (String.eqb x) ws.

(** ** The builtins as Python applies them to any value *)

Definition isinstance_str (v : pyvalue) : bool :=
  match v with
  | VStr _ => true
  | _ => false
  end.

(** [value.lower()]: only text has the method. *)
Definition py_lower (v : pyvalue) : outcome string :=
  match v with
  | VStr s => Return (lower s)
  | _ => Raise AttributeError
  end.

Definition py_startswith (v : pyvalue) (p : string) : outcome bool :=
  match v with
  | VStr s => Return (startswith s p)
  | _ => Raise AttributeError
  end.

Definition py_endswith (v : pyvalue) (x : string) : outcome bool :=
  match v with
  | VStr s => Return (endswith s x)
  | _ => Raise AttributeError
  end.

(** [value[start:stop]]: the other scalars are not subscriptable. *)
Definition py_slice (v : pyvalue) (start stop : option Z) : outcome pyvalue :=
  match v with
  | VStr s => Return (VStr (slice s start stop))
  | _ => Raise TypeError
  end.

(** [needle in value]: the other scalars are not iterable. *)
Definition py_contains (needle : string) (v : pyvalue) : outcome bool :=
  match v with
  | VStr s => Return (contains needle s)
  | _ => Raise TypeError
  end.

Definition py_len (s : string) : Z := Z.of_nat (String.length s).

(** Truth value of a text: empty is falsy. *)
Definition str_truthy (s : string) : bool :=
  match s with
  | EmptyString => false
  | String _ _ => true
  end.

(** ** [int] and [float]

    What [int(s)] and [float(s)] make of a text [s] is an interface:
    [Some] number, or [None] for [ValueError].  The converters are
    verified against every implementation of it; [ascii_parse] below is
    CPython's grammar on ASCII text. *)
Class PyParse : Type := {
  int_of_str : string -> option Z;
  float_of_str : string -> option float
}.

Definition float_of_Z (n : Z) : float :=
  SF2Prim (binary_normalize prec emax n 0 false).

(** Truncation towards zero of a finite float. *)
Definition trunc_finite (neg : bool) (m : positive) (e : Z) : Z :=
  let a := if 0 <=? e then Z.pos m * 2 ^ e else Z.pos m / 2 ^ (- e) in
  if neg then - a else a.

Section Builtins.
Context `{PyParse}.

Definition py_int (v : pyvalue) : outcome pyvalue :=
  match v with
  | VNone => Raise TypeError
  | VBool b => Return (VInt (if b then 1 else 0))
  | VInt n => Return (VInt n)
  | VFloat x =>
      match Prim2SF x with
      | S754_zero _ => Return (VInt 0)
      | S754_finite neg m e => Return (VInt (trunc_finite neg m e))
      | S754_infinity _ => Raise OverflowError
      | S754_nan => Raise ValueError
      end
  | VStr s =>
      match int_of_str s with
      | Some n => Return (VInt n)
      | None => Raise ValueError
      end
  end.

Definition py_float (v : pyvalue) : outcome pyvalue :=
  match v with
  | VNone => Raise TypeError
  | VBool b => Return (VFloat (float_of_Z (if b then 1 else 0)))
  | VInt n =>
      let x := float_of_Z n in
      if is_infinity x then Raise OverflowError else Return (VFloat x)
  | VFloat x => Return (VFloat x)
  | VStr s =>
      match float_of_str s with
      | Some x => Return (VFloat x)
      | None => Raise ValueError
      end
  end.

(** ** converters.py *)

Definition convert_to_boolean (value : pyvalue) : outcome pyvalue :=
  if isinstance_str value then
    do low <- py_lower value;
    if in_list low ["t"; "true"; "on"; "yes"; "1"] then Return (VBool true)
    else
      do low <- py_lower value;
      if in_list low ["f"; "false"; "off"; "no"; "0"] then Return (VBool false)
      else Return value
  else Return value.

(** [if prefix and value.startswith(prefix): value = value[len(prefix):]].
    [None] and the empty text are falsy, and [and] then leaves its
    right operand unevaluated. *)
Definition strip_prefix (value : pyvalue) (prefix : option string)
    : outcome pyvalue :=
  match prefix with
  | Some p =>
      if str_truthy p then
        do c <- py_startswith value p;
        if c then py_slice value (Some (py_len p)) None else Return value
      else Return value
  | None => Return value
  end.

(** [if suffix and value.endswith(suffix): value = value[:-len(suffix)]]. *)
Definition strip_suffix (value : pyvalue) (suffix : option string)
    : outcome pyvalue :=
  match suffix with
  | Some x =>
      if str_truthy x then
        do c <- py_endswith value x;
        if c then py_slice value None (Some (- py_len x)) else Return value
      else Return value
  | None => Return value
  end.

(** [float(value) if "." in value else int(value)]. *)
Definition parse_number (value : pyvalue) : outcome pyvalue :=
  do dot <- py_contains "." value;
  if dot then py_float value else py_int value.

Definition convert_to_number (value : pyvalue) (prefix suffix : option string)
    : outcome pyvalue :=
  do value <- strip_prefix value prefix;
  do value <- strip_suffix value suffix;
  try_except (parse_number value) [TypeError; ValueError] (Return value).

(** The text the two [if] statements leave of a text [s]. *)
Definition stripped (s : string) (prefix suffix : option string) : string :=
  let s :=
    match prefix with
    | Some p =>
        if str_truthy p && startswith s p then slice s (Some (py_len p)) None
        else s
    | None => s
    end in
  match suffix with
  | Some x =>
      if str_truthy x && endswith s x then slice s None (Some (- py_len x))
      else s
  | None => s
  end.

(** The parse chosen for a text fails: [float] where the text has a
    full stop, [int] where it has none. *)
Definition parse_fails (t : string) : Prop :=
  if contains "." t then float_of_str t = None else int_of_str t = None.

End Builtins.

(** ** CPython's [int] and [float] on ASCII text

    Both strip white space, take an optional sign, and allow a single
    underscore between two digits.  Digits and white space outside ASCII
    and the interpreter's limit on the length of an integer literal are
    left to other instances of [PyParse]. *)
Module AsciiParse.

Definition code (c : ascii) : nat := nat_of_ascii c.

(** The ASCII characters [str.isspace] accepts. *)
Definition is_space (c : ascii) : bool :=
  ((9 <=? code c) && (code c <=? 13) || (28 <=? code c) && (code c <=? 32))%nat.

Definition is_digit (c : ascii) : bool :=
  ((48 <=? code c) && (code c <=? 57))%nat.

Definition digit_val (c : ascii) : Z := Z.of_nat (code c - 48).

Fixpoint lstrip (l : list ascii) : list ascii :=
  match l with
  | c :: l' => if is_space c then lstrip l' else l
  | [] => []
  end.

Definition strip (l : list ascii) : list ascii :=
  rev (lstrip (rev (lstrip l))).

(** Removes the underscores; [None] when one of them is not between
    two digits. *)
Fixpoint drop_underscores (after_digit : bool) (l : list ascii)
    : option (list ascii) :=
  match l with
  | [] => Some []
  | c :: l' =>
      if Ascii.eqb c "_" then
        match l' with
        | d :: _ =>
            if after_digit && is_digit d then drop_underscores false l'
            else None
        | [] => None
        end
      else option_map (cons c) (drop_underscores (is_digit c) l')
  end.

(** An optional sign: [true] for minus. *)
Definition split_sign (l : list ascii) : bool * list ascii :=
  match l with
  | c :: l' =>
      if Ascii.eqb c "-" then (true, l')
      else if Ascii.eqb c "+" then (false, l')
      else (false, l)
  | [] => (false, [])
  end.

(** The longest run of digits at the front, and the rest. *)
Fixpoint span_digits (l : list ascii) : list ascii * list ascii :=
  match l with
  | c :: l' =>
      if is_digit c then let '(ds, r) := span_digits l' in (c :: ds, r)
      else ([], l)
  | [] => ([], [])
  end.

Definition decimal (ds : list ascii) : Z :=
  fold_left (fun acc c => 10 * acc + digit_val c) ds 0.

Definition int_of_ascii (s : string) : option Z :=
  match drop_underscores false (strip (list_ascii_of_string s)) with
  | None => None
  | Some l =>
      let '(neg, l) := split_sign l in
      match span_digits l with
      | ((_ :: _) as ds, []) => Some (if neg then - decimal ds else decimal ds)
      | _ => None
      end
  end.

(** The double nearest to [m * 10 ^ x], ties to even, for [0 <= m]. *)
Definition round_decimal (neg : bool) (m x : Z) : spec_float :=
  if 0 <=? x then
    match m * 10 ^ x with
    | Z.pos p => binary_round prec emax neg p 0
    | _ => S754_zero neg
    end
  else
    match m with
    | Z.pos _ =>
        let d := 10 ^ (- x) in
        let s := Z.log2 d + 64 in
        let q := (m * 2 ^ s) / d in
        let r := (m * 2 ^ s) mod d in
        let loc := if r =? 0 then loc_Exact else loc_Inexact (2 * r ?= d) in
        binary_round_aux prec emax neg q (- s) loc
    | _ => S754_zero neg
    end.

(** An exponent part [e], [e+] or [e-] and digits; zero when absent. *)
Definition exponent (l : list ascii) : option Z :=
  match l with
  | [] => Some 0
  | c :: l' =>
      if Ascii.eqb (lower_ascii c) "e" then
        let '(neg, l') := split_sign l' in
        match span_digits l' with
        | ((_ :: _) as ds, []) => Some (if neg then - decimal ds else decimal ds)
        | _ => None
        end
      else None
  end.

(** Digits, an optional point and digits, an optional exponent; at
    least one digit before the exponent. *)
Definition decimal_float (neg : bool) (l : list ascii) : option spec_float :=
  let '(ip, r) := span_digits l in
  let '(fp, r) :=
    match r with
    | c :: r' => if Ascii.eqb c "." then span_digits r' else ([], r)
    | [] => ([], [])
    end in
  match ip ++ fp with
  | [] => None
  | ds =>
      match exponent r with
      | Some e => Some (round_decimal neg (decimal ds) (e - Z.of_nat (length fp)))
      | None => None
      end
  end.

Definition float_of_ascii (s : string) : option float :=
  match drop_underscores false (strip (list_ascii_of_string s)) with
  | None => None
  | Some l =>
      let '(neg, l) := split_sign l in
      let word := lower (string_of_list_ascii l) in
      if in_list word ["inf"; "infinity"] then Some (SF2Prim (S754_infinity neg))
      else if String.eqb word "nan" then Some (SF2Prim S754_nan)
      else option_map SF2Prim (decimal_float neg l)
  end.

End AsciiParse.

#[export] Instance ascii_parse : PyParse := {
  int_of_str := AsciiParse.int_of_ascii;
  float_of_str := AsciiParse.float_of_ascii
}.

(** ** jinja2's [Markup] and [escape]

    A [Markup] is text marked as safe HTML.  [escape] replaces the five
    characters HTML reserves; adding plain text to a [Markup] escapes the
    plain text first. *)
Record Markup : Type := markup { html_of : string }.

Definition escape_ascii (c : ascii) : string :=
  if Ascii.eqb c "&" then "&amp;"
  else if Ascii.eqb c "<" then "&lt;"
  else if Ascii.eqb c ">" then "&gt;"
  else if Ascii.eqb c "'" then "&#39;"
  else if Ascii.eqb c "034" then "&#34;"
  else String c EmptyString.

Fixpoint escape_text (s : string) : string :=
  match s with
  | EmptyString => EmptyString
  | String c s' => escape_ascii c +:+ escape_text s'
  end.

Definition escape (s : string) : Markup := markup (escape_text s).

(** [a + b] for two [Markup]s, and [a + s] for a plain text [s]. *)
Definition markup_add (a b : Markup) : Markup :=
  markup (html_of a +:+ html_of b).

Definition markup_add_str (a : Markup) (s : string) : Markup :=
  markup_add a (escape s).

Definition markup_truthy (a : Markup) : bool := str_truthy (html_of a).

(** ** Questions *)

(** Modelled from the spec: the class [Question] of [dmcontent.questions]
    is not among the sources.  A question has an [id], a [type] tag, its
    prompt text [question], the flag [is_optional], and the optional
    texts [question_advice] and [hint]; [get] is the safe lookup that
    answers [None] for a field that is absent. *)
Module Question.

Record t : Type := {
  id : string;
  type : string;
  question : string;
  is_optional : bool;
  question_advice : option string;
  hint : option string
}.

Definition get (q : t) (key : string) : option string :=
  if String.eqb key "id" then Some (id q)
  else if String.eqb key "type" then Some (type q)
  else if String.eqb key "question" then Some (question q)
  else if String.eqb key "question_advice" then question_advice q
  else if String.eqb key "hint" then hint q
  else None.

End Question.

(** Truth value of what [question.get] answers: [None] and the empty
    text are falsy. *)
Definition opt_truthy (o : option string) : bool :=
  match o with
  | Some s => str_truthy s
  | None => false
  end.

(** The attribute itself, read where [get] has shown it to be there. *)
Definition attr (o : option string) : string := default EmptyString o.

(** ** Dicts *)

(** Truth value of a dict: empty is falsy. *)
Definition dict_truthy {V : Type} (d : gmap string V) : bool :=
  negb (size d =? 0)%nat.

(** [d and k in d], for an optional dict [d]. *)
Definition and_in {V : Type} (d : option (gmap string V)) (k : string) : bool :=
  match d with
  | Some m => dict_truthy m && bool_decide (is_Some (m !! k))
  | None => false
  end.

(** [d[k]], reached only where [and_in d k] holds. *)
Definition item {V : Type} (d : option (gmap string V)) (k : string) : option V :=
  d ≫= (.!! k).

(** The label text: the prompt, marked where the question is optional. *)
Definition label_text (question : Question.t) : string :=
  let label_text := Question.question question in
  if Question.is_optional question then label_text +:+ " (optional)"
  else label_text.

(** The hint: the advice in a [div], a line feed where a hint follows
    it, and the hint, each escaped. *)
Definition hint_html (question : Question.t) : Markup :=
  let hint_html := markup EmptyString in
  let hint_html :=
    if opt_truthy (Question.get question "question_advice") then
      let hint_html :=
        markup_add hint_html
          (markup ("<div class=" +:+ dquote +:+ "app-hint--text" +:+ dquote
                   +:+ ">" +:+ nl)) in
      let hint_html :=
        markup_add hint_html
          (escape (attr (Question.question_advice question))) in
      let hint_html := markup_add hint_html (markup (nl +:+ "</div>")) in
      if opt_truthy (Question.get question "hint") then
        markup_add_str hint_html nl
      else hint_html
    else hint_html in
  if opt_truthy (Question.get question "hint") then
    markup_add hint_html (escape (attr (Question.hint question)))
  else hint_html.

Section GovukFrontend.

(** What the error map stores for a question, and the message
    [govuk_error(e)["errorMessage"]] that [dmutils.forms.errors] makes
    of it. *)
Variables error error_message : Type.
Variable govuk_error : error -> error_message.

(** The values of a macro's parameters. *)
#[warnings="-register-all"]
Inductive param : Type :=
| PScalar (v : pyvalue)
| PMarkup (m : Markup)
| PError (m : error_message)
| PDict (d : gmap string param).

Definition pstr (s : string) : param := PScalar (VStr s).

(** ** govuk_frontend.py *)

Definition _params (question : Question.t) (data : option (gmap string pyvalue))
    (errors : option (gmap string error)) : gmap string param :=
  let params : gmap string param :=
    {[ "id" := pstr ("input-" +:+ Question.id question);
       "name" := pstr (Question.id question) ]} in
  let params :=
    <[ "label" := PDict {[ "classes" := pstr "govuk-label--l";
                           "isPageHeading" := PScalar (VBool true);
                           "text" := pstr (label_text question) ]} ]> params in
  let hint_html := hint_html question in
  let params :=
    if markup_truthy hint_html then
      <[ "hint" := PDict {[ "html" := PMarkup hint_html ]} ]> params
    else params in
  let params :=
    if and_in data (Question.id question) then
      match item data (Question.id question) with
      | Some v => <[ "value" := PScalar v ]> params
      | None => params
      end
    else params in
  let params :=
    if and_in errors (Question.id question) then
      match item errors (Question.id question) with
      | Some e => <[ "errorMessage" := PError (govuk_error e) ]> params
      | None => params
      end
    else params in
  params.

Definition govuk_input (question : Question.t)
    (data : option (gmap string pyvalue)) (errors : option (gmap string error))
    : gmap string param :=
  let params := _params question data errors in
  let params := <[ "classes" := pstr "app-text-input--height-compatible" ]> params in
  params.

Definition from_question (question : Question.t)
    (data : option (gmap string pyvalue)) (errors : option (gmap string error))
    : option (string * gmap string param) :=
  if String.eqb (Question.type question) "text" then
    Some ("govukInput", govuk_input question data errors)
  else None.

End GovukFrontend.

Arguments PScalar {error_message} v.
Arguments PMarkup {error_message} m.
Arguments PError {error_message} m.
Arguments PDict {error_message} d.
Arguments pstr {error_message} s.
Arguments _params {error error_message} govuk_error question data errors.
Arguments govuk_input {error error_message} govuk_error question data errors.
Arguments from_question {error error_message} govuk_error question data errors.

(** ** Sample inputs *)

Definition text_question : Question.t := {|
  Question.id := "title";
  Question.type := "text";
  Question.question := "What is the title?";
  Question.is_optional := true;
  Question.question_advice := Some "Keep it <short>";
  Question.hint := Some "100 characters & no more"
|}.

Definition plain_question : Question.t := {|
  Question.id := "title";
  Question.type := "text";
  Question.question := "What is the title?";
  Question.is_optional := false;
  Question.question_advice := None;
  Question.hint := None
|}.

Definition radios_question : Question.t := {|
  Question.id := "colour";
  Question.type := "radios";
  Question.question := "Which colour?";
  Question.is_optional := false;
  Question.question_advice := None;
  Question.hint := None
|}.

(** A question with a hint and no advice, and one with advice and an
    empty hint. *)
Definition hint_question : Question.t := {|
  Question.id := "title";
  Question.type := "text";
  Question.question := "What is the title?";
  Question.is_optional := false;
  Question.question_advice := None;
  Question.hint := Some "100 characters & no more"
|}.

Definition advice_question : Question.t := {|
  Question.id := "title";
  Question.type := "text";
  Question.question := "What is the title?";
  Question.is_optional := false;
  Question.question_advice := Some "Keep it <short>";
  Question.hint := Some EmptyString
|}.

(** An error map that stores the message itself. *)
Definition message_error (e : string) : string := e.

(** * Properties *)

(** ** Text *)

Lemma length_app (s t : string) :
  String.length (s +:+ t) = (String.length s + String.length t)%nat.
Proof. induction s as [|c s IH]; simpl; [reflexivity | now rewrite IH]. Qed.

Lemma app_empty_r (s : string) : s +:+ EmptyString = s.
Proof.
  induction s as [|c s IH]; [reflexivity|].
  change (String c (s +:+ EmptyString) = String c s). now rewrite IH.
Qed.

Lemma substring_all (s : string) : String.substring 0 (String.length s) s = s.
Proof. induction s as [|c s IH]; simpl; [reflexivity | now rewrite IH]. Qed.

Lemma substring_skip (p t : string) (m : nat) :
  String.substring (String.length p) m (p +:+ t) = String.substring 0 m t.
Proof. induction p as [|c p IH]; simpl; [reflexivity | apply IH]. Qed.

Lemma substring_take (t x : string) :
  String.substring 0 (String.length t) (t +:+ x) = t.
Proof. induction t as [|c t IH]; simpl; [now destruct x | now rewrite IH]. Qed.

Lemma startswith_app (p t : string) : startswith (p +:+ t) p = true.
Proof.
  unfold startswith. induction p as [|c p IH]; simpl.
  - now destruct t.
  - destruct (ascii_dec c c); [apply IH | congruence].
Qed.

Lemma endswith_app (t x : string) : endswith (t +:+ x) x = true.
Proof.
  unfold endswith. rewrite length_app.
  replace (String.length t + String.length x - String.length x)%nat
    with (String.length t) by lia.
  rewrite substring_skip, substring_all, String.eqb_refl.
  rewrite andb_true_r. apply Nat.leb_le. lia.
Qed.

Lemma slice_after_prefix (p t : string) :
  slice (p +:+ t) (Some (py_len p)) None = t.
Proof.
  unfold slice, slice_index, py_len. rewrite length_app.
  destruct (Z.ltb_spec (Z.of_nat (String.length p)) 0); [lia|].
  rewrite Z.min_l by lia. rewrite Nat2Z.id, Nat2Z.inj_add.
  rewrite Z.add_simpl_l, Nat2Z.id, substring_skip. apply substring_all.
Qed.

Lemma slice_before_suffix (t x : string) :
  str_truthy x = true -> slice (t +:+ x) None (Some (- py_len x)) = t.
Proof.
  intros Hx. unfold slice, slice_index, py_len. rewrite length_app.
  assert (0 < String.length x)%nat by (destruct x; simpl in *; [discriminate | lia]).
  destruct (Z.ltb_spec (- Z.of_nat (String.length x)) 0); [|lia].
  rewrite Nat2Z.inj_add, Z.max_r by lia.
  replace (- Z.of_nat (String.length x)
           + (Z.of_nat (String.length t) + Z.of_nat (String.length x)) - 0)
    with (Z.of_nat (String.length t)) by lia.
  rewrite Nat2Z.id. apply substring_take.
Qed.


Lemma in_list_In (x : string) (ws : list string) : in_list x ws = true <-> In x ws.
Proof.
  unfold in_list. rewrite existsb_exists. split.
  - intros (w & Hw & Heq). apply String.eqb_eq in Heq. now subst.
  - intros Hx. exists x. split; [assumption | apply String.eqb_refl].
Qed.

Lemma in_list_not_In (x : string) (ws : list string) :
  in_list x ws = false <-> ~ In x ws.
Proof.
  rewrite <- in_list_In. destruct (in_list x ws); split; congruence.
Qed.

(** ** convert_to_boolean *)

Lemma convert_to_boolean_text (s : string) :
  convert_to_boolean (VStr s) =
  if in_list (lower s) ["t"; "true"; "on"; "yes"; "1"] then Return (VBool true)
  else if in_list (lower s) ["f"; "false"; "off"; "no"; "0"]
       then Return (VBool false)
       else Return (VStr s).
Proof. reflexivity. Qed.

(** C7: a text whose lower case is one of t, true, on, yes, 1 becomes
    [True]; one whose lower case is one of f, false, off, no, 0 becomes
    [False]; every other value, text or not, is returned as it is; and
    no value makes [convert_to_boolean] raise. *)
Theorem convert_to_boolean_spec (value : pyvalue) :
  (forall s, value = VStr s ->
     In (lower s) ["t"; "true"; "on"; "yes"; "1"] ->
     convert_to_boolean value = Return (VBool true)) /\
  (forall s, value = VStr s ->
     In (lower s) ["f"; "false"; "off"; "no"; "0"] ->
     convert_to_boolean value = Return (VBool false)) /\
  ((forall s, value = VStr s ->
      ~ In (lower s) ["t"; "true"; "on"; "yes"; "1"] /\
      ~ In (lower s) ["f"; "false"; "off"; "no"; "0"]) ->
   convert_to_boolean value = Return value) /\
  returns (convert_to_boolean value).
Proof.
  repeat split.
  - intros s -> Hin. rewrite convert_to_boolean_text.
    apply in_list_In in Hin. now rewrite Hin.
  - intros s -> Hin. rewrite convert_to_boolean_text.
    assert (Hno : in_list (lower s) ["t"; "true"; "on"; "yes"; "1"] = false).
    { simpl in Hin.
      destruct Hin as [<-|[<-|[<-|[<-|[<-|[]]]]]]; reflexivity. }
    rewrite Hno. apply in_list_In in Hin. now rewrite Hin.
  - intros Hother. destruct value as [| b | n | x | s]; try reflexivity.
    destruct (Hother s eq_refl) as [Ht Hf].
    apply in_list_not_In in Ht, Hf.
    rewrite convert_to_boolean_text. now rewrite Ht, Hf.
  - destruct value as [| b | n | x | s]; try (eexists; reflexivity).
    rewrite convert_to_boolean_text.
    destruct (in_list (lower s) _); [eexists; reflexivity|].
    destruct (in_list (lower s) _); eexists; reflexivity.
Qed.

Lemma convert_to_boolean_spec_witness :
  convert_to_boolean (VStr "YES") = Return (VBool true) /\
  convert_to_boolean (VStr "Off") = Return (VBool false) /\
  convert_to_boolean (VStr "falsey") = Return (VStr "falsey") /\
  convert_to_boolean (VInt 0) = Return (VInt 0).
Proof.
  split; [|split; [|split]].
  - apply (proj1 (convert_to_boolean_spec (VStr "YES")) "YES" eq_refl).
    simpl. auto 10.
  - apply (proj1 (proj2 (convert_to_boolean_spec (VStr "Off"))) "Off" eq_refl).
    simpl. auto 10.
  - apply (proj1 (proj2 (proj2 (convert_to_boolean_spec (VStr "falsey"))))).
    intros s Hs. injection Hs as <-. simpl.
    split; intros Hin; repeat (destruct Hin as [Hin|Hin]; [discriminate|]);
      exact Hin.
  - apply (proj1 (proj2 (proj2 (convert_to_boolean_spec (VInt 0))))).
    intros s Hs. discriminate.
Defined.

(** ** convert_to_number *)

Section Number.
Context `{PyParse}.

Lemma strip_prefix_text (s : string) (prefix : option string) :
  strip_prefix (VStr s) prefix = Return (VStr (stripped s prefix None)).
Proof.
  unfold strip_prefix, stripped. destruct prefix as [p|]; [|reflexivity].
  destruct (str_truthy p); [|reflexivity]. simpl.
  now destruct (startswith s p).
Qed.

Lemma strip_suffix_text (s : string) (suffix : option string) :
  strip_suffix (VStr s) suffix = Return (VStr (stripped s None suffix)).
Proof.
  unfold strip_suffix, stripped. destruct suffix as [x|]; [|reflexivity].
  destruct (str_truthy x); [|reflexivity]. simpl.
  now destruct (endswith s x).
Qed.

Lemma stripped_split (s : string) (prefix suffix : option string) :
  stripped s prefix suffix = stripped (stripped s prefix None) None suffix.
Proof. reflexivity. Qed.

(** On a text the two [if] statements never raise, and the [try] sees
    the stripped text. *)
Lemma convert_to_number_text (s : string) (prefix suffix : option string) :
  convert_to_number (VStr s) prefix suffix =
  try_except (parse_number (VStr (stripped s prefix suffix)))
    [TypeError; ValueError] (Return (VStr (stripped s prefix suffix))).
Proof.
  unfold convert_to_number. rewrite strip_prefix_text. cbn [bind].
  rewrite strip_suffix_text. cbn [bind]. reflexivity.
Qed.

Lemma parse_number_text (t : string) :
  parse_number (VStr t) =
  if contains "." t then
    match float_of_str t with
    | Some x => Return (VFloat x)
    | None => Raise ValueError
    end
  else
    match int_of_str t with
    | Some n => Return (VInt n)
    | None => Raise ValueError
    end.
Proof. reflexivity. Qed.

(** No value but a text gets past ["." in value]. *)
Lemma parse_number_non_text (value : pyvalue) :
  isinstance_str value = false -> parse_number value = Raise TypeError.
Proof. destruct value; simpl; intros Hv; [reflexivity.. | discriminate]. Qed.

(** Without a truthy prefix or suffix a value that is not a text comes
    back as it is. *)
Lemma convert_to_number_non_text (value : pyvalue) (prefix suffix : option string) :
  isinstance_str value = false ->
  opt_truthy prefix = false -> opt_truthy suffix = false ->
  convert_to_number value prefix suffix = Return value.
Proof.
  intros Hv Hp Hx. unfold convert_to_number, strip_prefix, strip_suffix.
  destruct prefix as [p|]; simpl in Hp; [rewrite Hp|];
    destruct suffix as [x|]; simpl in Hx; try rewrite Hx; simpl;
    now rewrite (parse_number_non_text value Hv).
Qed.

(** With a prefix that is not empty, [startswith] is called on the
    value before the [try] is entered; likewise [endswith] with a suffix. *)
Lemma convert_to_number_non_text_prefix (value : pyvalue) (p : string)
    (suffix : option string) :
  isinstance_str value = false -> str_truthy p = true ->
  convert_to_number value (Some p) suffix = Raise AttributeError.
Proof.
  intros Hv Hp. unfold convert_to_number, strip_prefix. rewrite Hp.
  destruct value; simpl in Hv; [reflexivity.. | discriminate].
Qed.

Lemma convert_to_number_non_text_suffix (value : pyvalue)
    (prefix : option string) (x : string) :
  isinstance_str value = false -> opt_truthy prefix = false ->
  str_truthy x = true ->
  convert_to_number value prefix (Some x) = Raise AttributeError.
Proof.
  intros Hv Hp Hx. unfold convert_to_number, strip_prefix, strip_suffix.
  rewrite Hx. destruct prefix as [p|]; simpl in Hp; [rewrite Hp|];
    destruct value; simpl in Hv; try discriminate; reflexivity.
Qed.

(** C1: with a prefix or a suffix that is not empty, a value that is
    not a text makes [convert_to_number] raise [AttributeError]: the
    call of [startswith] (of [endswith]) is made on it, outside the
    [try]. *)
Theorem convert_to_number_non_text_affix_raises :
  convert_to_number (VInt 0) (Some "£") None = Raise AttributeError /\
  convert_to_number (VInt 0) None (Some "kg") = Raise AttributeError /\
  convert_to_number (VInt 0) None None = Return (VInt 0).
Proof. repeat split. Qed.

(** C2, as amended: when the parse of the stripped text fails, what
    [convert_to_number] returns is the stripped text, which is the input
    itself where no prefix and no suffix was removed. *)
Theorem convert_to_number_parse_failure (s : string) (prefix suffix : option string) :
  parse_fails (stripped s prefix suffix) ->
  convert_to_number (VStr s) prefix suffix
  = Return (VStr (stripped s prefix suffix)).
Proof.
  intros Hfail. rewrite convert_to_number_text, parse_number_text.
  unfold parse_fails in Hfail.
  destruct (contains "." (stripped s prefix suffix)); now rewrite Hfail.
Qed.

(** C8: a text whose stripped form has a full stop and is accepted by
    [float] gives that float; one whose stripped form has no full stop
    and is accepted by [int] gives that integer. *)
Theorem convert_to_number_parses (s : string) (prefix suffix : option string) :
  (contains "." (stripped s prefix suffix) = true ->
   forall x, float_of_str (stripped s prefix suffix) = Some x ->
   convert_to_number (VStr s) prefix suffix = Return (VFloat x)) /\
  (contains "." (stripped s prefix suffix) = false ->
   forall n, int_of_str (stripped s prefix suffix) = Some n ->
   convert_to_number (VStr s) prefix suffix = Return (VInt n)).
Proof.
  split; intros Hdot v Hv;
    now rewrite convert_to_number_text, parse_number_text, Hdot, Hv.
Qed.

(** One leading [p] and one trailing [x] are what the stripping takes
    off, whatever [t] between them is. *)
Lemma stripped_app (p t x : string) :
  stripped (p +:+ t +:+ x) (Some p) (Some x) = t.
Proof.
  unfold stripped. rewrite startswith_app, slice_after_prefix, andb_true_r.
  assert (Hp : (if str_truthy p then t +:+ x else p +:+ t +:+ x) = t +:+ x)
    by now destruct p.
  rewrite Hp, endswith_app, andb_true_r.
  destruct (str_truthy x) eqn:Hx.
  - now apply slice_before_suffix.
  - destruct x; [apply app_empty_r | discriminate].
Qed.

Lemma convert_to_number_app (p t x : string) :
  convert_to_number (VStr (p +:+ t +:+ x)) (Some p) (Some x)
  = convert_to_number (VStr t) None None.
Proof. now rewrite !convert_to_number_text, stripped_app. Qed.

(** C10: an empty prefix or suffix is as good as none, for every value. *)
Theorem convert_to_number_empty_affix (value : pyvalue) (prefix suffix : option string) :
  convert_to_number value (Some EmptyString) suffix
  = convert_to_number value None suffix /\
  convert_to_number value prefix (Some EmptyString)
  = convert_to_number value prefix None /\
  convert_to_number value (Some EmptyString) (Some EmptyString)
  = convert_to_number value None None.
Proof. repeat split. Qed.

End Number.

Lemma convert_to_number_parse_failure_witness :
  convert_to_number (VStr "abckg") None (Some "kg") = Return (VStr "abc").
Proof.
  apply (convert_to_number_parse_failure "abckg" None (Some "kg")).
  reflexivity.
Defined.

(** C2, as claimed, fails: with the suffix kg, the text abckg comes back
    as abc, not as it was passed in. *)
Lemma convert_to_number_not_original :
  parse_fails (stripped "abckg" None (Some "kg")) /\
  convert_to_number (VStr "abckg") None (Some "kg") <> Return (VStr "abckg").
Proof. split; [reflexivity | discriminate]. Qed.

Lemma convert_to_number_parses_witness :
  convert_to_number (VStr "0.99") None None
  = Return (VFloat (SF2Prim (S754_finite false 8917127262193582 (-53)))) /\
  convert_to_number (VStr "99999") None None = Return (VInt 99999).
Proof.
  split.
  - apply (proj1 (convert_to_number_parses "0.99" None None));
      vm_compute; reflexivity.
  - apply (proj2 (convert_to_number_parses "99999" None None));
      vm_compute; reflexivity.
Defined.

(** C9: one leading occurrence of the prefix and one trailing occurrence
    of the suffix are removed before the parse; the pound sign and kg
    come off 100, and abckg with the suffix kg comes back as abc. *)
Theorem convert_to_number_strips :
  (forall (P : PyParse) (p t x : string),
     convert_to_number (VStr (p +:+ t +:+ x)) (Some p) (Some x)
     = convert_to_number (VStr t) None None) /\
  convert_to_number (VStr "£100") (Some "£") None = Return (VInt 100) /\
  convert_to_number (VStr "100kg") None (Some "kg") = Return (VInt 100) /\
  convert_to_number (VStr "££100kgkg") (Some "£") (Some "kg")
  = Return (VStr "£100kg") /\
  convert_to_number (VStr "abckg") None (Some "kg") = Return (VStr "abc").
Proof.
  split; [intros P p t x; apply convert_to_number_app|].
  repeat split.
Qed.

(** ** Markup *)

Lemma app_assoc_str (s t u : string) : (s +:+ t) +:+ u = s +:+ t +:+ u.
Proof.
  induction s as [|c s IH]; [reflexivity|].
  change (String c ((s +:+ t) +:+ u) = String c (s +:+ t +:+ u)).
  now rewrite IH.
Qed.

Lemma str_truthy_app (s t : string) :
  str_truthy (s +:+ t) = str_truthy s || str_truthy t.
Proof. now destruct s. Qed.

Lemma escape_ascii_truthy (c : ascii) : str_truthy (escape_ascii c) = true.
Proof.
  unfold escape_ascii.
  repeat match goal with
         | |- context [Ascii.eqb ?a ?b] => destruct (Ascii.eqb a b)
         end; reflexivity.
Qed.

(** Escaping leaves no text empty that was not. *)
Lemma escape_text_truthy (s : string) : str_truthy (escape_text s) = str_truthy s.
Proof.
  destruct s as [|c s]; [reflexivity|].
  change (escape_text (String c s)) with (escape_ascii c +:+ escape_text s).
  now rewrite str_truthy_app, escape_ascii_truthy.
Qed.

Lemma opt_truthy_attr (o : option string) : str_truthy (attr o) = opt_truthy o.
Proof. now destruct o. Qed.

Lemma opt_truthy_spec (o : option string) :
  opt_truthy o = true <-> exists s, o = Some s /\ s <> EmptyString.
Proof.
  split.
  - destruct o as [[|c s]|]; try discriminate. intros _. now exists (String c s).
  - intros (s & -> & Hs). now destruct s.
Qed.

(** ** The hint *)

Lemma hint_html_truthy (q : Question.t) :
  markup_truthy (hint_html q)
  = opt_truthy (Question.question_advice q) || opt_truthy (Question.hint q).
Proof.
  unfold hint_html, markup_truthy.
  change (Question.get q "question_advice") with (Question.question_advice q).
  change (Question.get q "hint") with (Question.hint q).
  destruct (opt_truthy (Question.question_advice q)) eqn:Ha;
    destruct (opt_truthy (Question.hint q)) eqn:Hh; try reflexivity.
  unfold markup_add, escape. cbn [html_of].
  rewrite str_truthy_app, escape_text_truthy, opt_truthy_attr, Hh.
  apply orb_true_r.
Qed.

(** With both texts there, the hint is the advice in its [div], one
    line feed, and the hint text. *)
Lemma hint_html_both (q : Question.t) (advice hint : string) :
  Question.question_advice q = Some advice -> advice <> EmptyString ->
  Question.hint q = Some hint -> hint <> EmptyString ->
  hint_html q
  = markup (("<div class=" +:+ dquote +:+ "app-hint--text" +:+ dquote +:+ ">" +:+ nl)
            +:+ escape_text advice +:+ (nl +:+ "</div>")
            +:+ nl +:+ escape_text hint).
Proof.
  intros Ha Hna Hh Hnh. unfold hint_html.
  change (Question.get q "question_advice") with (Question.question_advice q).
  change (Question.get q "hint") with (Question.hint q).
  rewrite Ha, Hh.
  destruct advice as [|a advice]; [congruence|].
  destruct hint as [|h hint]; [congruence|].
  cbn [opt_truthy str_truthy attr default].
  unfold markup_add_str, markup_add, escape. cbn [html_of]. f_equal.
  change (escape_text nl) with nl.
  change (EmptyString +:+ ?s) with s.
  now rewrite !app_assoc_str.
Qed.

(** ** Dicts *)

Lemma item_spec {V : Type} (d : option (gmap string V)) (k : string) (v : V) :
  item d k = Some v <-> exists m, d = Some m /\ m !! k = Some v.
Proof.
  unfold item. destruct d as [m|]; simpl.
  - split; [intros Hk; now exists m | intros (m' & [= <-] & Hk); exact Hk].
  - split; [discriminate | intros (m' & [=] & _)].
Qed.

(** [d and k in d] holds exactly where [d[k]] is there to be read: an
    empty dict is falsy, and has no key either. *)
Lemma and_in_item {V : Type} (d : option (gmap string V)) (k : string) :
  and_in d k = true <-> is_Some (item d k).
Proof.
  unfold and_in, item, dict_truthy. destruct d as [m|]; simpl.
  - rewrite andb_true_iff, bool_decide_eq_true. split; [tauto|].
    intros Hk. split; [|assumption]. apply negb_true_iff, Nat.eqb_neq.
    intros Hz. apply map_size_empty_inv in Hz. subst m.
    rewrite lookup_empty in Hk. by destruct Hk.
  - split; [discriminate|]. intros []. discriminate.
Qed.

(** ** _params, govuk_input, from_question *)

Section Params.
Variables error error_message : Type.
Variable govuk_error : error -> error_message.
Implicit Types (q : Question.t) (data : option (gmap string pyvalue)).
Implicit Types (errors : option (gmap string error)).

Ltac split_params h :=
  destruct (markup_truthy h);
  repeat match goal with
         | |- context [and_in ?d ?k] => destruct (and_in d k)
         | |- context [item ?d ?k] => destruct (item d k)
         end;
  by simplify_map_eq.

Lemma params_lookup_hint q data errors :
  _params govuk_error q data errors !! "hint"
  = if markup_truthy (hint_html q)
    then Some (PDict {[ "html" := PMarkup (hint_html q) ]}) else None.
Proof.
  unfold _params. generalize (hint_html q) as h. intros h. split_params h.
Qed.

Lemma params_lookup_value q data errors :
  _params govuk_error q data errors !! "value"
  = PScalar <$> item data (Question.id q).
Proof.
  unfold _params. generalize (hint_html q) as h. intros h.
  destruct (and_in data _) eqn:Hd.
  - apply and_in_item in Hd as [v Hv]. rewrite Hv. split_params h.
  - assert (item data (Question.id q) = None) as ->.
    { apply eq_None_not_Some. rewrite <- and_in_item. congruence. }
    split_params h.
Qed.

Lemma params_lookup_error q data errors :
  _params govuk_error q data errors !! "errorMessage"
  = (fun e => PError (govuk_error e)) <$> item errors (Question.id q).
Proof.
  unfold _params. generalize (hint_html q) as h. intros h.
  destruct (and_in errors _) eqn:He.
  - apply and_in_item in He as [v Hv]. rewrite Hv. split_params h.
  - assert (item errors (Question.id q) = None) as ->.
    { apply eq_None_not_Some. rewrite <- and_in_item. congruence. }
    split_params h.
Qed.

(** [govuk_input] only adds the key classes. *)
Lemma govuk_input_lookup q data errors (k : string) :
  k <> "classes" ->
  govuk_input govuk_error q data errors !! k
  = _params govuk_error q data errors !! k.
Proof. intros Hk. unfold govuk_input. by rewrite lookup_insert_ne. Qed.

Lemma from_question_text q data errors (kind : string) (params : gmap string (param error_message)) :
  from_question govuk_error q data errors = Some (kind, params) ->
  Question.type q = "text" /\ kind = "govukInput"
  /\ params = govuk_input govuk_error q data errors.
Proof.
  unfold from_question.
  destruct (String.eqb_spec (Question.type q) "text") as [Ht|Ht]; [|discriminate].
  intros [= <- <-]. auto.
Qed.

(** C3: a question of type text gets the pair of the macro name
    govukInput and the parameters of [govuk_input]; a question of any
    other type gets [None]; so there is a pair exactly for the type
    text. *)
Theorem from_question_dispatch q data errors :
  (Question.type q = "text" ->
   from_question govuk_error q data errors
   = Some ("govukInput", govuk_input govuk_error q data errors)) /\
  (Question.type q <> "text" ->
   from_question govuk_error q data errors = None) /\
  (is_Some (from_question govuk_error q data errors)
   <-> Question.type q = "text").
Proof.
  unfold from_question.
  destruct (String.eqb_spec (Question.type q) "text") as [Ht|Ht].
  - repeat split; eauto. congruence.
  - repeat split; try congruence. intros []. discriminate.
Qed.

(** C4: the parameters built for a text question have the key hint
    exactly where the question's advice or its hint is there and not
    empty; with neither there, the key is missing. *)
Theorem from_question_hint_iff q data errors (kind : string)
    (params : gmap string (param error_message)) :
  from_question govuk_error q data errors = Some (kind, params) ->
  (is_Some (params !! "hint") <->
   (exists s, Question.question_advice q = Some s /\ s <> EmptyString) \/
   (exists s, Question.hint q = Some s /\ s <> EmptyString)) /\
  (Question.question_advice q = None -> Question.hint q = None ->
   params !! "hint" = None).
Proof.
  intros Hq. apply from_question_text in Hq as (_ & _ & ->).
  rewrite govuk_input_lookup by done.
  rewrite params_lookup_hint, hint_html_truthy, <- !opt_truthy_spec.
  split.
  - destruct (opt_truthy (Question.question_advice q)),
      (opt_truthy (Question.hint q)); simpl;
      (split; [intros Hs | intros [Hs|Hs]]); eauto; try discriminate.
    by destruct Hs.
  - now intros -> ->.
Qed.

(** C5: with the advice and the hint both there and not empty, the hint
    HTML built for a text question is the opening tag of the [div] and a
    line feed, the escaped advice, a line feed and the closing tag, then
    one line feed, then the escaped hint. *)
Theorem from_question_hint_both q data errors (kind : string)
    (params : gmap string (param error_message)) (advice hint : string) :
  from_question govuk_error q data errors = Some (kind, params) ->
  Question.question_advice q = Some advice -> advice <> EmptyString ->
  Question.hint q = Some hint -> hint <> EmptyString ->
  params !! "hint"
  = Some (PDict {[ "html" := PMarkup (markup (
      ("<div class=" +:+ dquote +:+ "app-hint--text" +:+ dquote +:+ ">" +:+ nl)
      +:+ escape_text advice +:+ (nl +:+ "</div>")
      +:+ nl +:+ escape_text hint)) ]}).
Proof.
  intros Hq Ha Hna Hh Hnh. apply from_question_text in Hq as (_ & _ & ->).
  rewrite govuk_input_lookup by done.
  rewrite params_lookup_hint, hint_html_truthy.
  rewrite (hint_html_both q advice hint Ha Hna Hh Hnh).
  assert (opt_truthy (Question.question_advice q) = true) as ->
    by (apply opt_truthy_spec; eauto).
  reflexivity.
Qed.

(** C6: the parameters built for a text question have the key value
    exactly where a data map is given that has the question's id, and
    the value is then that entry as it is; they have the key
    errorMessage exactly where an error map is given that has the
    question's id. *)
Theorem from_question_value_error q data errors (kind : string)
    (params : gmap string (param error_message)) :
  from_question govuk_error q data errors = Some (kind, params) ->
  (is_Some (params !! "value") <->
   exists d, data = Some d /\ is_Some (d !! Question.id q)) /\
  (forall d v, data = Some d -> d !! Question.id q = Some v ->
   params !! "value" = Some (PScalar v)) /\
  (is_Some (params !! "errorMessage") <->
   exists m, errors = Some m /\ is_Some (m !! Question.id q)) /\
  (forall m e, errors = Some m -> m !! Question.id q = Some e ->
   params !! "errorMessage" = Some (PError (govuk_error e))).
Proof.
  intros Hq. apply from_question_text in Hq as (_ & _ & ->).
  rewrite !govuk_input_lookup by done.
  rewrite params_lookup_value, params_lookup_error, !fmap_is_Some.
  repeat split.
  - intros [v (d & -> & Hv)%item_spec]. eauto.
  - intros (d & -> & v & Hv). exists v. apply item_spec. eauto.
  - intros d v -> Hv. now rewrite (proj2 (item_spec (Some d) _ v)) by eauto.
  - intros [e (m & -> & He)%item_spec]. eauto.
  - intros (m & -> & e & He). exists e. apply item_spec. eauto.
  - intros m e -> He. now rewrite (proj2 (item_spec (Some m) _ e)) by eauto.
Qed.

End Params.

Lemma from_question_dispatch_witness :
  from_question message_error text_question None None
  = Some ("govukInput", govuk_input message_error text_question None None) /\
  from_question message_error radios_question None None = None.
Proof.
  split.
  - apply (proj1 (from_question_dispatch _ _ message_error text_question None None)).
    reflexivity.
  - apply (proj1 (proj2 (from_question_dispatch _ _ message_error radios_question
                           None None))).
    simpl. discriminate.
Defined.

Lemma from_question_hint_iff_witness :
  is_Some (govuk_input message_error text_question None None !! "hint") /\
  govuk_input message_error plain_question None None !! "hint" = None.
Proof.
  split.
  - apply (proj1 (from_question_hint_iff _ _ message_error text_question None None
                    "govukInput" _ eq_refl)).
    left. eexists. split; [reflexivity | discriminate].
  - apply (proj2 (from_question_hint_iff _ _ message_error plain_question None None
                    "govukInput" _ eq_refl)); reflexivity.
Defined.

Lemma from_question_hint_both_witness :
  govuk_input message_error text_question None None !! "hint"
  = Some (PDict {[ "html" := PMarkup (markup (
      "<div class=" +:+ dquote +:+ "app-hint--text" +:+ dquote +:+ ">" +:+ nl
      +:+ "Keep it &lt;short&gt;" +:+ nl +:+ "</div>" +:+ nl
      +:+ "100 characters &amp; no more")) ]}).
Proof.
  apply (from_question_hint_both _ _ message_error text_question None None
           "govukInput" _ "Keep it <short>" "100 characters & no more" eq_refl);
    first [reflexivity | discriminate].
Defined.

Lemma from_question_value_error_witness :
  govuk_input message_error text_question (Some {[ "title" := VInt 3 ]})
    (Some {[ "title" := "Enter a title" ]}) !! "value"
  = Some (PScalar (VInt 3)) /\
  govuk_input message_error text_question (Some {[ "title" := VInt 3 ]})
    (Some {[ "title" := "Enter a title" ]}) !! "errorMessage"
  = Some (PError "Enter a title") /\
  ~ is_Some (govuk_input message_error text_question (Some {[ "other" := VInt 3 ]})
               None !! "value").
Proof.
  split; [|split].
  - apply (proj1 (proj2 (from_question_value_error _ _ message_error text_question
             (Some {[ "title" := VInt 3 ]}) (Some {[ "title" := "Enter a title" ]})
             "govukInput" _ eq_refl)) {[ "title" := VInt 3 ]} (VInt 3) eq_refl).
    reflexivity.
  - apply (proj2 (proj2 (proj2 (from_question_value_error _ _ message_error
             text_question (Some {[ "title" := VInt 3 ]})
             (Some {[ "title" := "Enter a title" ]}) "govukInput" _ eq_refl)))
             {[ "title" := "Enter a title" ]} "Enter a title" eq_refl).
    reflexivity.
  - intros Hv.
    apply (proj1 (proj1 (from_question_value_error _ _ message_error text_question
             (Some {[ "other" := VInt 3 ]}) None "govukInput" _ eq_refl))) in Hv.
    destruct Hv as (d & [= <-] & Hd). vm_compute in Hd. destruct Hd. discriminate.
Defined.

(** * Further properties *)

(** ** Text and the number grammar *)

Lemma contains_dot_cons (c : ascii) (s : string) :
  contains "." (String c s) = Ascii.eqb c "." || contains "." s.
Proof.
  unfold contains.
  change (String.index 0 "." (String c s))
    with (if String.prefix "." (String c s) then Some 0%nat
          else match String.index 0 "." s with
               | Some n => Some (S n)
               | None => None
               end).
  change (String.prefix "." (String c s))
    with (if ascii_dec "." c then String.prefix EmptyString s else false).
  destruct (ascii_dec "." c) as [<-|Hc].
  - now destruct s.
  - destruct (Ascii.eqb_spec c ".") as [->|_]; [congruence|].
    now destruct (String.index 0 "." s).
Qed.

(** ["." in s] holds exactly where the full stop is one of the
    characters of [s]. *)
Lemma contains_dot (s : string) :
  contains "." s = true <-> In "."%char (list_ascii_of_string s).
Proof.
  induction s as [|c s IH]; [split; [discriminate | intros []]|].
  rewrite contains_dot_cons, orb_true_iff, IH. simpl.
  destruct (Ascii.eqb_spec c "."); intuition congruence.
Qed.

Lemma forallb_rev {A : Type} (f : A -> bool) (l : list A) :
  forallb f (rev l) = forallb f l.
Proof.
  induction l as [|a l IH]; [reflexivity|].
  simpl. rewrite forallb_app, IH. simpl. rewrite andb_true_r. apply andb_comm.
Qed.

Module AsciiFacts.
Import AsciiParse.

(** A digit or a full stop is no space, no underscore, no sign and no
    letter. *)
Lemma mantissa_char_plain (c : ascii) :
  is_digit c || Ascii.eqb c "." = true ->
  is_space c = false /\ Ascii.eqb c "_" = false /\ Ascii.eqb c "-" = false
  /\ Ascii.eqb c "+" = false /\ Ascii.eqb (lower_ascii c) "i" = false
  /\ Ascii.eqb (lower_ascii c) "n" = false.
Proof.
  intros [Hd | ->%Ascii.eqb_eq]%orb_true_iff; [|now repeat split].
  assert (Hc : (48 <= nat_of_ascii c <= 57)%nat).
  { unfold is_digit, code in Hd. apply andb_true_iff in Hd as [H1 H2].
    apply Nat.leb_le in H1, H2. lia. }
  assert (Hlow : lower_ascii c = c).
  { unfold lower_ascii, is_upper.
    replace (65 <=? nat_of_ascii c)%nat with false; [reflexivity|].
    symmetry. apply Nat.leb_gt. lia. }
  rewrite Hlow. repeat split.
  - unfold is_space, code.
    apply orb_false_iff; split; apply andb_false_iff; right;
      apply Nat.leb_gt; lia.
  - destruct (Ascii.eqb_spec c "_") as [->|]; [discriminate | reflexivity].
  - destruct (Ascii.eqb_spec c "-") as [->|]; [discriminate | reflexivity].
  - destruct (Ascii.eqb_spec c "+") as [->|]; [discriminate | reflexivity].
  - destruct (Ascii.eqb_spec c "i") as [->|]; [discriminate | reflexivity].
  - destruct (Ascii.eqb_spec c "n") as [->|]; [discriminate | reflexivity].
Qed.

Lemma digits_mantissa (ds : list ascii) :
  forallb is_digit ds = true ->
  forallb (fun c => is_digit c || Ascii.eqb c ".") ds = true.
Proof.
  rewrite !forallb_forall. intros Hd c Hc. now rewrite (Hd c Hc).
Qed.

Section Mantissa.
Variable l : list ascii.
Hypothesis Hl : forallb (fun c => is_digit c || Ascii.eqb c ".") l = true.

Lemma lstrip_mantissa : lstrip l = l.
Proof.
  destruct l as [|c l']; [reflexivity|]. simpl in *.
  apply andb_true_iff in Hl as [Hc _].
  now rewrite (proj1 (mantissa_char_plain c Hc)).
Qed.

Lemma split_sign_mantissa : split_sign l = (false, l).
Proof.
  destruct l as [|c l']; [reflexivity|]. simpl in *.
  apply andb_true_iff in Hl as [Hc _].
  destruct (mantissa_char_plain c Hc) as (_ & _ & -> & -> & _). reflexivity.
Qed.

Lemma not_a_word :
  in_list (lower (string_of_list_ascii l)) ["inf"; "infinity"] = false /\
  String.eqb (lower (string_of_list_ascii l)) "nan" = false.
Proof.
  destruct l as [|c l']; [split; reflexivity|]. simpl in Hl.
  apply andb_true_iff in Hl as [Hc _].
  destruct (mantissa_char_plain c Hc) as (_ & _ & _ & _ & Hi & Hn).
  unfold in_list. simpl. now rewrite Hi, Hn.
Qed.

End Mantissa.

Lemma strip_mantissa (l : list ascii) :
  forallb (fun c => is_digit c || Ascii.eqb c ".") l = true -> strip l = l.
Proof.
  intros Hl. unfold strip. rewrite (lstrip_mantissa l Hl).
  rewrite lstrip_mantissa by now rewrite forallb_rev.
  apply rev_involutive.
Qed.

Lemma drop_underscores_mantissa (l : list ascii) (b : bool) :
  forallb (fun c => is_digit c || Ascii.eqb c ".") l = true ->
  drop_underscores b l = Some l.
Proof.
  revert b. induction l as [|c l IH]; intros b; [reflexivity|].
  simpl. intros [Hc Hl]%andb_true_iff.
  destruct (mantissa_char_plain c Hc) as (_ & -> & _). now rewrite IH.
Qed.

Lemma span_digits_app (a r : list ascii) :
  forallb is_digit a = true ->
  span_digits (a ++ r) = (a ++ fst (span_digits r), snd (span_digits r)).
Proof.
  induction a as [|c a IH]; simpl.
  - intros _. now destruct (span_digits r).
  - intros [Hc Ha]%andb_true_iff. now rewrite Hc, IH.
Qed.

Lemma span_digits_all (ds : list ascii) :
  forallb is_digit ds = true -> span_digits ds = (ds, []).
Proof.
  intros Hd. rewrite <- (app_nil_r ds) at 1.
  rewrite span_digits_app by assumption. simpl. now rewrite app_nil_r.
Qed.

Lemma mantissa_chars (a b : list ascii) :
  forallb is_digit a = true -> forallb is_digit b = true ->
  forallb (fun c => is_digit c || Ascii.eqb c ".") (a ++ "."%char :: b) = true.
Proof.
  intros Ha Hb. rewrite forallb_app. simpl.
  now rewrite (digits_mantissa a Ha), (digits_mantissa b Hb).
Qed.


(** [float] accepts digits, a full stop and digits, with a digit on at
    least one side. *)
Lemma float_of_point (a b : list ascii) :
  forallb is_digit a = true -> forallb is_digit b = true -> a ++ b <> [] ->
  float_of_ascii (string_of_list_ascii (a ++ "."%char :: b))
  = Some (SF2Prim (round_decimal false (decimal (a ++ b))
                                 (- Z.of_nat (length b)))).
Proof.
  intros Ha Hb Hne. pose proof (mantissa_chars a b Ha Hb) as Hl.
  unfold float_of_ascii.
  rewrite list_ascii_of_string_of_list_ascii, (strip_mantissa _ Hl).
  rewrite (drop_underscores_mantissa _ false Hl), (split_sign_mantissa _ Hl).
  destruct (not_a_word _ Hl) as [-> ->].
  assert (Hspan : span_digits (a ++ "."%char :: b) = (a, "."%char :: b)).
  { rewrite (span_digits_app a _ Ha).
    change (span_digits ("."%char :: b)) with (@nil ascii, "."%char :: b).
    simpl. now rewrite app_nil_r. }
  unfold decimal_float. rewrite Hspan.
  change (if Ascii.eqb "." "." then span_digits b else ([], "."%char :: b))
    with (span_digits b).
  rewrite (span_digits_all b Hb).
  destruct (a ++ b) eqn:Hab; [congruence|]. reflexivity.
Qed.

End AsciiFacts.

(** ** convert_to_boolean, applied again *)

(** Converting the result of [convert_to_boolean] once more changes
    nothing: a boolean stays, and a value that was left alone is left
    alone again. *)
Theorem convert_to_boolean_again (value : pyvalue) :
  bind (convert_to_boolean value) convert_to_boolean = convert_to_boolean value.
Proof.
  destruct value as [| b | n | x | s]; try reflexivity.
  rewrite convert_to_boolean_text.
  destruct (in_list (lower s) ["t"; "true"; "on"; "yes"; "1"]) eqn:Ht;
    [reflexivity|].
  destruct (in_list (lower s) ["f"; "false"; "off"; "no"; "0"]) eqn:Hf;
    [reflexivity|].
  cbn [bind]. now rewrite convert_to_boolean_text, Ht, Hf.
Qed.

(** ** convert_to_number: when it raises, and what it returns *)

Section MoreNumber.
Context `{PyParse}.

(** On a text [convert_to_number] always returns, and what it returns
    is an integer, a float, or the stripped text. *)
Theorem convert_to_number_text_returns (s : string)
    (prefix suffix : option string) :
  (exists n, convert_to_number (VStr s) prefix suffix = Return (VInt n)) \/
  (exists x, convert_to_number (VStr s) prefix suffix = Return (VFloat x)) \/
  convert_to_number (VStr s) prefix suffix
  = Return (VStr (stripped s prefix suffix)).
Proof.
  rewrite convert_to_number_text, parse_number_text.
  destruct (contains "." (stripped s prefix suffix)).
  - destruct (float_of_str _); simpl; eauto.
  - destruct (int_of_str _); simpl; eauto.
Qed.


(** What [convert_to_number] does with a value that is not a text. *)
Lemma convert_to_number_non_text_cases (value : pyvalue)
    (prefix suffix : option string) :
  isinstance_str value = false ->
  (opt_truthy prefix || opt_truthy suffix = true /\
   convert_to_number value prefix suffix = Raise AttributeError) \/
  (opt_truthy prefix || opt_truthy suffix = false /\
   convert_to_number value prefix suffix = Return value).
Proof.
  intros Hv. destruct (opt_truthy prefix) eqn:Hp.
  - left. split; [reflexivity|].
    destruct prefix as [p|]; [|discriminate].
    now apply convert_to_number_non_text_prefix.
  - destruct (opt_truthy suffix) eqn:Hx.
    + left. split; [reflexivity|].
      destruct suffix as [x|]; [|discriminate].
      now apply convert_to_number_non_text_suffix.
    + right. split; [reflexivity|]. now apply convert_to_number_non_text.
Qed.


(** Passing the result of [convert_to_number] through it once more,
    with no prefix and no suffix, changes nothing. *)
Theorem convert_to_number_again (value : pyvalue)
    (prefix suffix : option string) :
  bind (convert_to_number value prefix suffix)
       (fun v => convert_to_number v None None)
  = convert_to_number value prefix suffix.
Proof.
  destruct (isinstance_str value) eqn:Hv.
  - destruct value; try discriminate.
    rewrite convert_to_number_text, parse_number_text.
    destruct (contains "." (stripped s prefix suffix)) eqn:Hdot.
    + destruct (float_of_str _) eqn:Hf; simpl; [reflexivity|].
      rewrite convert_to_number_text, parse_number_text.
      change (stripped (stripped s prefix suffix) None None)
        with (stripped s prefix suffix).
      now rewrite Hdot, Hf.
    + destruct (int_of_str _) eqn:Hi; simpl; [reflexivity|].
      rewrite convert_to_number_text, parse_number_text.
      change (stripped (stripped s prefix suffix) None None)
        with (stripped s prefix suffix).
      now rewrite Hdot, Hi.
  - destruct (convert_to_number_non_text_cases value prefix suffix Hv)
      as [[_ ->]|[_ ->]]; [reflexivity|].
    cbn [bind]. now apply convert_to_number_non_text.
Qed.

(** A prefix the text does not start with and a suffix it does not end
    with are as good as none. *)
Theorem convert_to_number_no_match (s p x : string) :
  startswith s p = false -> endswith s x = false ->
  convert_to_number (VStr s) (Some p) (Some x)
  = convert_to_number (VStr s) None None.
Proof.
  intros Hp Hx. rewrite !convert_to_number_text.
  assert (stripped s (Some p) (Some x) = s) as ->; [|reflexivity].
  unfold stripped. now rewrite Hp, andb_false_r, Hx, andb_false_r.
Qed.

(** An integer comes only from a stripped text without a full stop that
    [int] accepts, and a float only from one with a full stop that
    [float] accepts: 1.0 never becomes the integer 1, and 1e5 never
    becomes a float. *)
Theorem convert_to_number_kind (s : string) (prefix suffix : option string) :
  (forall n, convert_to_number (VStr s) prefix suffix = Return (VInt n) ->
   ~ In "."%char (list_ascii_of_string (stripped s prefix suffix)) /\
   int_of_str (stripped s prefix suffix) = Some n) /\
  (forall x, convert_to_number (VStr s) prefix suffix = Return (VFloat x) ->
   In "."%char (list_ascii_of_string (stripped s prefix suffix)) /\
   float_of_str (stripped s prefix suffix) = Some x).
Proof.
  rewrite convert_to_number_text, parse_number_text.
  pose proof (contains_dot (stripped s prefix suffix)) as Hdot.
  destruct (contains "." (stripped s prefix suffix)).
  - destruct (float_of_str _); simpl; split; intros v [= <-].
    split; [now apply Hdot | reflexivity].
  - destruct (int_of_str _); simpl; split; intros v [= <-].
    split; [|reflexivity]. intros Hin. apply Hdot in Hin. discriminate.
Qed.

End MoreNumber.


Lemma convert_to_number_no_match_witness :
  convert_to_number (VStr "100") (Some "£") (Some "kg")
  = convert_to_number (VStr "100") None None.
Proof.
  apply (convert_to_number_no_match "100" "£" "kg"); reflexivity.
Defined.

Lemma convert_to_number_kind_witness :
  ~ In "."%char (list_ascii_of_string "100") /\ int_of_str "100" = Some 100.
Proof.
  apply (proj1 (convert_to_number_kind "100kg" None (Some "kg")) 100).
  reflexivity.
Defined.

(** ** convert_to_number on plain numerals *)



(** ASCII digits, a full stop and ASCII digits, with a digit on at least
    one side, become a float. *)
Theorem convert_to_number_point (a b : list ascii) :
  forallb AsciiParse.is_digit a = true ->
  forallb AsciiParse.is_digit b = true -> a ++ b <> [] ->
  exists x, convert_to_number (VStr (string_of_list_ascii (a ++ "."%char :: b)))
              None None = Return (VFloat x).
Proof.
  intros Ha Hb Hne. eexists.
  rewrite convert_to_number_text, parse_number_text.
  change (stripped (string_of_list_ascii (a ++ "."%char :: b)) None None)
    with (string_of_list_ascii (a ++ "."%char :: b)).
  assert (Hdot : contains "." (string_of_list_ascii (a ++ "."%char :: b)) = true).
  { rewrite contains_dot, list_ascii_of_string_of_list_ascii.
    apply in_or_app. right. now left. }
  rewrite Hdot.
  change (float_of_str (string_of_list_ascii (a ++ "."%char :: b)))
    with (AsciiParse.float_of_ascii (string_of_list_ascii (a ++ "."%char :: b))).
  rewrite (AsciiFacts.float_of_point a b Ha Hb Hne). reflexivity.
Qed.

Lemma convert_to_number_point_witness :
  exists x, convert_to_number (VStr "1000.0000001") None None = Return (VFloat x).
Proof.
  apply (convert_to_number_point (list_ascii_of_string "1000")
           (list_ascii_of_string "0000001")).
  - reflexivity.
  - reflexivity.
  - discriminate.
Defined.

(** ** The parameters of govuk_input, key by key *)

Section MoreParams.
Variables error error_message : Type.
Variable govuk_error : error -> error_message.
Implicit Types (q : Question.t) (data : option (gmap string pyvalue)).
Implicit Types (errors : option (gmap string error)).

Ltac split_all :=
  unfold govuk_input, _params;
  repeat match goal with
         | |- context [markup_truthy ?h] => destruct (markup_truthy h)
         | |- context [and_in ?d ?k] => destruct (and_in d k)
         | |- context [item ?d ?k] => destruct (item d k)
         end.

(** Whatever else goes into the parameters, id is the question's id
    after the text input- and name is the question's id. *)
Theorem govuk_input_id_name q data errors :
  govuk_input govuk_error q data errors !! "id"
  = Some (pstr ("input-" +:+ Question.id q)) /\
  govuk_input govuk_error q data errors !! "name"
  = Some (pstr (Question.id q)).
Proof. split; split_all; by simplify_map_eq. Qed.

(** The label is always there: styled as a large page heading, with the
    question's prompt as text, followed by (optional) exactly where the
    question is optional. *)
Theorem govuk_input_label q data errors :
  govuk_input govuk_error q data errors !! "label"
  = Some (PDict {[ "classes" := pstr "govuk-label--l";
                   "isPageHeading" := PScalar (VBool true);
                   "text" := pstr (if Question.is_optional q
                                   then Question.question q +:+ " (optional)"
                                   else Question.question q) ]}).
Proof. split_all; by simplify_map_eq. Qed.

Lemma params_no_classes q data errors :
  _params govuk_error q data errors !! "classes" = None.
Proof. split_all; by simplify_map_eq. Qed.

(** [govuk_input] is [_params] and the key classes: [_params] never
    sets that key itself, so taking it out again gives [_params] back. *)
Theorem govuk_input_classes q data errors :
  govuk_input govuk_error q data errors !! "classes"
  = Some (pstr "app-text-input--height-compatible") /\
  delete "classes" (govuk_input govuk_error q data errors)
  = _params govuk_error q data errors.
Proof.
  split.
  - unfold govuk_input. by rewrite lookup_insert_eq.
  - unfold govuk_input. apply delete_insert_id, params_no_classes.
Qed.

(** The parameters always have the keys id, name, label and classes,
    and never a key besides these and hint, value and errorMessage. *)
Theorem govuk_input_keys q data errors :
  ({[ "id"; "name"; "label"; "classes" ]} : gset string)
    ⊆ dom (govuk_input govuk_error q data errors) /\
  dom (govuk_input govuk_error q data errors)
    ⊆ {[ "id"; "name"; "label"; "classes"; "hint"; "value"; "errorMessage" ]}.
Proof.
  split; split_all; rewrite ?dom_insert_L, ?dom_singleton_L;
    intros k; rewrite !elem_of_union, !elem_of_singleton; tauto.
Qed.

(** With advice and no hint (or an empty one), the hint HTML is the
    advice in its [div], with no line feed after the closing tag. *)
Theorem govuk_input_hint_advice_only q data errors (advice : string) :
  Question.question_advice q = Some advice -> advice <> EmptyString ->
  opt_truthy (Question.hint q) = false ->
  govuk_input govuk_error q data errors !! "hint"
  = Some (PDict {[ "html" := PMarkup (markup (
      ("<div class=" +:+ dquote +:+ "app-hint--text" +:+ dquote +:+ ">" +:+ nl)
      +:+ escape_text advice +:+ nl +:+ "</div>")) ]}).
Proof.
  intros Ha Hna Hh. rewrite govuk_input_lookup by done.
  rewrite params_lookup_hint, hint_html_truthy, Hh, orb_false_r.
  assert (Hq : opt_truthy (Question.question_advice q) = true)
    by (apply opt_truthy_spec; eauto).
  rewrite Hq.
  assert (hint_html q = markup (
      ("<div class=" +:+ dquote +:+ "app-hint--text" +:+ dquote +:+ ">" +:+ nl)
      +:+ escape_text advice +:+ nl +:+ "</div>")) as ->; [|reflexivity].
  unfold hint_html.
  change (Question.get q "question_advice") with (Question.question_advice q).
  change (Question.get q "hint") with (Question.hint q).
  rewrite Hq, Hh, Ha. reflexivity.
Qed.

(** With a hint and no advice (or an empty one), the hint HTML is the
    escaped hint alone: no [div] and no line feed before it. *)
Theorem govuk_input_hint_only q data errors (hint : string) :
  opt_truthy (Question.question_advice q) = false ->
  Question.hint q = Some hint -> hint <> EmptyString ->
  govuk_input govuk_error q data errors !! "hint"
  = Some (PDict {[ "html" := PMarkup (escape hint) ]}).
Proof.
  intros Ha Hh Hnh. rewrite govuk_input_lookup by done.
  rewrite params_lookup_hint, hint_html_truthy, Ha.
  assert (Hq : opt_truthy (Question.hint q) = true)
    by (apply opt_truthy_spec; eauto).
  rewrite Hq. cbn [orb].
  assert (hint_html q = escape hint) as ->; [|reflexivity].
  unfold hint_html.
  change (Question.get q "question_advice") with (Question.question_advice q).
  change (Question.get q "hint") with (Question.hint q).
  rewrite Hq, Ha, Hh. reflexivity.
Qed.

(** A data map without the question's id, the empty one among them, is
    as good as no data map, and likewise for the error map. *)
Theorem params_without_id q (d : gmap string pyvalue) (m : gmap string error)
    data errors :
  (d !! Question.id q = None ->
   _params govuk_error q (Some d) errors = _params govuk_error q None errors) /\
  (m !! Question.id q = None ->
   _params govuk_error q data (Some m) = _params govuk_error q data None).
Proof.
  split; intros Hk; unfold _params, and_in, item; simpl; rewrite Hk;
    rewrite bool_decide_eq_false_2, ?andb_false_r by (by intros []); done.
Qed.

(** The data map shows in the key value only and the error map in the
    key errorMessage only: every other key is as without the two maps,
    value does not depend on the error map, and errorMessage does not
    depend on the data map. *)
Theorem govuk_input_separate q data errors (k : string) :
  (k <> "value" -> k <> "errorMessage" ->
   govuk_input govuk_error q data errors !! k
   = govuk_input govuk_error q None None !! k) /\
  govuk_input govuk_error q data errors !! "value"
  = govuk_input govuk_error q data None !! "value" /\
  govuk_input govuk_error q data errors !! "errorMessage"
  = govuk_input govuk_error q None errors !! "errorMessage".
Proof.
  split; [|split].
  - intros Hv He. unfold govuk_input.
    destruct (decide (k = "classes")) as [->|Hc].
    + by rewrite !lookup_insert_eq.
    + rewrite !lookup_insert_ne by done. unfold _params. simpl.
      repeat match goal with
             | |- context [markup_truthy ?h] => destruct (markup_truthy h)
             | |- context [and_in ?d ?k] => destruct (and_in d k)
             | |- context [item ?d ?k] => destruct (item d k)
             end; by rewrite ?lookup_insert_ne by done.
  - rewrite !govuk_input_lookup by done. by rewrite !params_lookup_value.
  - rewrite !govuk_input_lookup by done. by rewrite !params_lookup_error.
Qed.

End MoreParams.

Lemma govuk_input_hint_advice_only_witness :
  govuk_input message_error advice_question None None !! "hint"
  = Some (PDict {[ "html" := PMarkup (markup (
      "<div class=" +:+ dquote +:+ "app-hint--text" +:+ dquote +:+ ">" +:+ nl
      +:+ "Keep it &lt;short&gt;" +:+ nl +:+ "</div>")) ]}).
Proof.
  apply (govuk_input_hint_advice_only _ _ message_error advice_question
           None None "Keep it <short>");
    first [reflexivity | discriminate].
Defined.

Lemma govuk_input_hint_only_witness :
  govuk_input message_error hint_question None None !! "hint"
  = Some (PDict {[ "html" := PMarkup (markup "100 characters &amp; no more") ]}).
Proof.
  apply (govuk_input_hint_only _ _ message_error hint_question None None
           "100 characters & no more");
    first [reflexivity | discriminate].
Defined.

Lemma params_without_id_witness :
  _params message_error text_question (Some {[ "other" := VInt 3 ]}) None
  = _params message_error text_question None None /\
  _params message_error text_question None (Some ∅)
  = _params message_error text_question None None.
Proof.
  split.
  - apply (proj1 (params_without_id _ _ message_error text_question
                    {[ "other" := VInt 3 ]} ∅ None None)).
    reflexivity.
  - apply (proj2 (params_without_id _ _ message_error text_question
                    ∅ ∅ None None)).
    reflexivity.
Defined.

Lemma govuk_input_separate_witness :
  govuk_input message_error text_question (Some {[ "title" := VInt 3 ]})
    (Some {[ "title" := "Enter a title" ]}) !! "hint"
  = govuk_input message_error text_question None None !! "hint".
Proof.
  apply (proj1 (govuk_input_separate _ _ message_error text_question
                  (Some {[ "title" := VInt 3 ]})
                  (Some {[ "title" := "Enter a title" ]}) "hint"));
    discriminate.
Defined.

(** ** Letter case, and a text that is all prefix and suffix *)

(** [convert_to_boolean] looks at the lower case of a text only: two
    texts that differ in letter case alone give the same boolean. *)
Theorem convert_to_boolean_case (s t : string) (b : bool) :
  lower s = lower t ->
  convert_to_boolean (VStr s) = Return (VBool b) ->
  convert_to_boolean (VStr t) = Return (VBool b).
Proof.
  intros Hst. rewrite !convert_to_boolean_text, Hst.
  destruct (in_list (lower t) ["t"; "true"; "on"; "yes"; "1"]); [trivial|].
  destruct (in_list (lower t) ["f"; "false"; "off"; "no"; "0"]); [trivial|].
  discriminate.
Qed.

Lemma convert_to_boolean_case_witness :
  convert_to_boolean (VStr "TRUE") = Return (VBool true).
Proof.
  apply (convert_to_boolean_case "true" "TRUE" true); reflexivity.
Defined.

(** A text made of the prefix and the suffix and nothing between them
    comes back as the empty text, the prefix alone and the suffix alone
    among them. *)
Theorem convert_to_number_affixes_alone (p x : string) :
  convert_to_number (VStr (p +:+ x)) (Some p) (Some x)
  = Return (VStr EmptyString).
Proof.
  change (p +:+ x) with (p +:+ EmptyString +:+ x).
  now rewrite convert_to_number_app.
Qed.
